(** * Immo-Invest-Tool: the calculation engine, embedded and verified

    A shallow embedding of [src/finance_engine.py] and
    [src/tax_calculator.py], followed by the properties of the
    natural-language specification, each settled on the embedding.

    Modelling decisions, once and for all:
    - a Python [float] is read in two ways. [FinanceEngine] and
      [TaxCalculator] read it as an exact rational ([Q]), with equalities
      between amounts stated with [==]; that reading serves the statements
      that repeat the code's own expressions or rest on its branching.
      [Binary64] embeds the schedule and the projection once more on IEEE
      754 binary64, the kernel's primitive floats, for the statements that
      rounding decides;
    - a Python [int] is a [Z], injected into [Q] where the code mixes both;
    - a function returns in the exception monad [Exc]: the only operations
      of the two modules that can raise are true division
      ([ZeroDivisionError]) and positional indexing ([IndexError]);
    - a [pandas.DataFrame] is the list of its rows; [df[c].tolist()] is
      [map c df], [df[c].iloc[0]] is the head of that column and [df.empty]
      is the test for the absence of rows;
    - a [dict] with a fixed set of string keys is a record with one field
      per key. *)

From Stdlib Require Import QArith Qminmax Lqa ZArith List Lia Bool Sorted.
From Stdlib Require Import Floats.

(* Decimal literals denote the nearest binary64 value, as in Python. *)
Set Warnings "-inexact-float".
Import ListNotations.
Local Open Scope Q_scope.

(* ===================================================================== *)
(** ** The Python operations the engine relies on *)
(* ===================================================================== *)

Inductive PyError : Type :=
| ZeroDivisionError
| IndexError.

Inductive Exc (A : Type) : Type :=
| Ok (a : A)
| Raise (e : PyError).

Arguments Ok {A} a.
Arguments Raise {A} e.

Definition bind {A B : Type} (c : Exc A) (k : A -> Exc B) : Exc B :=
  match c with
  | Ok a => k a
  | Raise e => Raise e
  end.

Notation "x <- c ;; k" := (bind c (fun x => k))
  (at level 61, c at next level, right associativity).

(** [raises c]: the call ends in an exception, whichever it is. *)
Definition raises {A : Type} (c : Exc A) : Prop :=
  exists e, c = Raise e.

Module Py.

(** [a < b] and [a <= b] on numbers. *)
Definition lt (a b : Q) : bool := negb (Qle_bool b a).
Definition le (a b : Q) : bool := Qle_bool a b.

(** [min(a, b)]: the first argument unless the second is strictly
    smaller; [max(a, b)]: the first unless the second is strictly
    larger. *)
Definition min (a b : Q) : Q := if lt b a then b else a.
Definition max (a b : Q) : Q := if lt a b then b else a.

(** [a / b] *)
Definition truediv (a b : Q) : Exc Q :=
  if Qeq_bool b 0 then Raise ZeroDivisionError else Ok (a / b).

(** [range(lo, hi)] *)
Definition range (lo hi : Z) : list Z :=
  map (fun i => (lo + Z.of_nat i)%Z) (seq 0 (Z.to_nat (hi - lo))).

(** [enumerate(xs)], counting from [i] *)
Fixpoint enumerate_from {A : Type} (i : nat) (xs : list A) : list (nat * A) :=
  match xs with
  | [] => []
  | x :: rest => (i, x) :: enumerate_from (S i) rest
  end.

Definition enumerate {A : Type} (xs : list A) : list (nat * A) :=
  enumerate_from 0 xs.

(** [xs[i]] for a non-negative index *)
Definition getitem {A : Type} (xs : list A) (i : nat) : Exc A :=
  match nth_error xs i with
  | Some x => Ok x
  | None => Raise IndexError
  end.

(** [series.iloc[0]] on a column given as a list *)
Definition iloc0 {A : Type} (xs : list A) : Exc A := getitem xs 0.

End Py.

(* ===================================================================== *)
(** ** finance_engine.py *)
(* ===================================================================== *)

Module FinanceEngine.

Record FinanzierungErgebnis : Type := {
  darlehensbetrag : Q;
  monatliche_rate : Q;
  jaehrliche_rate : Q;
  gesamtkosten : Q;
  zinsen_gesamt : Q
}.

Record CashflowErgebnis : Type := {
  brutto_mieteinnahmen : Q;
  netto_mieteinnahmen : Q;
  cashflow_vor_steuern : Q;
  cashflow_nach_steuern : Q
}.

Record RenditeErgebnis : Type := {
  brutto_mietrendite : Q;
  netto_mietrendite : Q;
  eigenkapitalrendite : Q;
  objektrendite : Q;
  cashflow_rendite : Q
}.

(** The dictionary returned by [berechne_nebenkosten]. *)
Record Nebenkosten : Type := {
  grunderwerbsteuer : Q;
  notar_und_grundbuch : Q;
  makler : Q;
  gesamt : Q
}.

(** A row of the amortization schedule; the columns of the DataFrame. *)
Record TilgungsZeile : Type := {
  Jahr : Z;
  Zinsanteil : Q;
  Tilgungsanteil : Q;
  Restschuld : Q;
  Zinsen_kumuliert : Q;
  Tilgung_kumuliert : Q
}.

Definition Tilgungsplan : Type := list TilgungsZeile.

(** A row of the wealth projection. *)
Record VermoegensZeile : Type := {
  V_Jahr : Z;
  Immobilienwert : Q;
  V_Restschuld : Q;
  Nettovermoegen : Q;
  Cashflow_kumuliert : Q;
  Gesamtvermoegen : Q
}.

Definition berechne_nebenkosten
    (kaufpreis grunderwerbsteuer notar_und_grundbuch makler : Q)
    : Exc Nebenkosten :=
  g <- Py.truediv (kaufpreis * grunderwerbsteuer) 100 ;;
  n <- Py.truediv (kaufpreis * notar_und_grundbuch) 100 ;;
  m <- Py.truediv (kaufpreis * makler) 100 ;;
  s <- Py.truediv
         (kaufpreis * (grunderwerbsteuer + notar_und_grundbuch + makler))
         100 ;;
  Ok {| grunderwerbsteuer := g;
        notar_und_grundbuch := n;
        makler := m;
        gesamt := s |}.

Definition berechne_annuitaet
    (darlehensbetrag zinssatz_prozent tilgung_prozent : Q)
    (laufzeit_jahre : Z) : Exc FinanzierungErgebnis :=
  let annuitaet_prozent := zinssatz_prozent + tilgung_prozent in
  jaehrliche_rate <- Py.truediv (darlehensbetrag * annuitaet_prozent) 100 ;;
  monatliche_rate <- Py.truediv jaehrliche_rate 12 ;;
  let gesamtkosten := jaehrliche_rate * inject_Z laufzeit_jahre in
  let zinsen_gesamt := gesamtkosten - darlehensbetrag in
  Ok {| darlehensbetrag := darlehensbetrag;
        monatliche_rate := monatliche_rate;
        jaehrliche_rate := jaehrliche_rate;
        gesamtkosten := Py.max gesamtkosten darlehensbetrag;
        zinsen_gesamt := Py.max zinsen_gesamt 0 |}.

(** The [for jahr in range(...)] loop of [berechne_tilgungsplan]; the
    three accumulators are threaded, the six column lists that the source
    appends to in lockstep are the rows returned. *)
Fixpoint tilgungsplan_schleife (zinssatz annuitaet : Q) (jahre : list Z)
    (restschuld zinsen_kumuliert tilgung_kumuliert : Q) : Tilgungsplan :=
  match jahre with
  | [] => []
  | jahr :: rest =>
      if Py.le restschuld 0 then []
      else
        let zinsanteil := restschuld * zinssatz in
        let tilgungsanteil := Py.min (annuitaet - zinsanteil) restschuld in
        let restschuld := Py.max 0 (restschuld - tilgungsanteil) in
        let zinsen_kumuliert := zinsen_kumuliert + zinsanteil in
        let tilgung_kumuliert := tilgung_kumuliert + tilgungsanteil in
        {| Jahr := jahr;
           Zinsanteil := zinsanteil;
           Tilgungsanteil := tilgungsanteil;
           Restschuld := restschuld;
           Zinsen_kumuliert := zinsen_kumuliert;
           Tilgung_kumuliert := tilgung_kumuliert |}
        :: tilgungsplan_schleife zinssatz annuitaet rest
             restschuld zinsen_kumuliert tilgung_kumuliert
  end.

Definition berechne_tilgungsplan
    (darlehensbetrag zinssatz_prozent tilgung_prozent : Q)
    (laufzeit_jahre : Z) : Exc Tilgungsplan :=
  zinssatz <- Py.truediv zinssatz_prozent 100 ;;
  annuitaet <- Py.truediv
                 (darlehensbetrag * (zinssatz_prozent + tilgung_prozent))
                 100 ;;
  Ok (tilgungsplan_schleife zinssatz annuitaet
        (Py.range 1 (laufzeit_jahre + 1)) darlehensbetrag 0 0).

Definition berechne_cashflow
    (kaltmiete_monatlich nicht_umlegbare_kosten_monatlich
     mietausfallwagnis_prozent monatliche_rate steuervorteil_monatlich : Q)
    : Exc CashflowErgebnis :=
  let brutto_mieteinnahmen := kaltmiete_monatlich * 12 in
  mietausfall <-
    Py.truediv (brutto_mieteinnahmen * mietausfallwagnis_prozent) 100 ;;
  let netto_mieteinnahmen :=
    brutto_mieteinnahmen - mietausfall
    - (nicht_umlegbare_kosten_monatlich * 12) in
  let jaehrliche_rate := monatliche_rate * 12 in
  let cashflow_vor_steuern := netto_mieteinnahmen - jaehrliche_rate in
  let cashflow_nach_steuern :=
    cashflow_vor_steuern + (steuervorteil_monatlich * 12) in
  Ok {| brutto_mieteinnahmen := brutto_mieteinnahmen;
        netto_mieteinnahmen := netto_mieteinnahmen;
        cashflow_vor_steuern := cashflow_vor_steuern;
        cashflow_nach_steuern := cashflow_nach_steuern |}.

Definition berechne_renditen
    (kaufpreis nebenkosten eigenkapital brutto_mieteinnahmen
     netto_mieteinnahmen cashflow_nach_steuern : Q) : Exc RenditeErgebnis :=
  let gesamtinvestition := kaufpreis + nebenkosten in
  brutto_mietrendite <-
    (if Py.lt 0 kaufpreis
     then q <- Py.truediv brutto_mieteinnahmen kaufpreis ;; Ok (q * 100)
     else Ok 0) ;;
  netto_mietrendite <-
    (if Py.lt 0 gesamtinvestition
     then q <- Py.truediv netto_mieteinnahmen gesamtinvestition ;;
          Ok (q * 100)
     else Ok 0) ;;
  eigenkapitalrendite <-
    (if Py.lt 0 eigenkapital
     then q <- Py.truediv cashflow_nach_steuern eigenkapital ;; Ok (q * 100)
     else Ok 0) ;;
  let objektrendite := netto_mietrendite in
  cashflow_rendite <-
    (if Py.lt 0 gesamtinvestition
     then q <- Py.truediv cashflow_nach_steuern gesamtinvestition ;;
          Ok (q * 100)
     else Ok 0) ;;
  Ok {| brutto_mietrendite := brutto_mietrendite;
        netto_mietrendite := netto_mietrendite;
        eigenkapitalrendite := eigenkapitalrendite;
        objektrendite := objektrendite;
        cashflow_rendite := cashflow_rendite |}.

(** The [for i, jahr in enumerate(jahre)] loop of
    [berechne_vermoegensaufbau], threading [immobilienwert] and
    [cf_kumuliert]. *)
Fixpoint vermoegen_schleife (wertsteigerung_prozent cashflow_jaehrlich : Q)
    (restschulden : list Q) (jahre : list (nat * Z))
    (immobilienwert cf_kumuliert : Q) : Exc (list VermoegensZeile) :=
  match jahre with
  | [] => Ok []
  | (i, jahr) :: rest =>
      w <- Py.truediv wertsteigerung_prozent 100 ;;
      let immobilienwert := immobilienwert * (1 + w) in
      restschuld_i <- Py.getitem restschulden i ;;
      let netto := immobilienwert - restschuld_i in
      let cf_kumuliert := cf_kumuliert + cashflow_jaehrlich in
      zeilen <- vermoegen_schleife wertsteigerung_prozent cashflow_jaehrlich
                  restschulden rest immobilienwert cf_kumuliert ;;
      Ok ({| V_Jahr := jahr;
             Immobilienwert := immobilienwert;
             V_Restschuld := restschuld_i;
             Nettovermoegen := netto;
             Cashflow_kumuliert := cf_kumuliert;
             Gesamtvermoegen := netto + cf_kumuliert |} :: zeilen)
  end.

(** The value the source binds to its local [darlehensbetrag], from the
    first entries of three columns of the schedule. *)
Definition vermoegen_darlehensbetrag (tilgungsplan : Tilgungsplan) : Exc Q :=
  r0 <- Py.iloc0 (map Restschuld tilgungsplan) ;;
  k0 <- Py.iloc0 (map Tilgung_kumuliert tilgungsplan) ;;
  t0 <- Py.iloc0 (map Tilgungsanteil tilgungsplan) ;;
  Ok (r0 + k0 - t0).

(** The value of [immobilienwert] on entry to the loop:
    [kaufpreis if kaufpreis > 0 else darlehensbetrag + eigenkapital]. *)
Definition vermoegen_startwert (eigenkapital kaufpreis : Q)
    (tilgungsplan : Tilgungsplan) : Exc Q :=
  darlehensbetrag <- vermoegen_darlehensbetrag tilgungsplan ;;
  Ok (if Py.lt 0 kaufpreis then kaufpreis
      else darlehensbetrag + eigenkapital).

Definition berechne_vermoegensaufbau
    (eigenkapital : Q) (tilgungsplan : Tilgungsplan)
    (cashflow_jaehrlich wertsteigerung_prozent kaufpreis : Q)
    : Exc (list VermoegensZeile) :=
  match tilgungsplan with
  | [] => Ok []
  | _ :: _ =>
      let jahre := map Jahr tilgungsplan in
      let restschulden := map Restschuld tilgungsplan in
      immobilienwert <-
        vermoegen_startwert eigenkapital kaufpreis tilgungsplan ;;
      vermoegen_schleife wertsteigerung_prozent cashflow_jaehrlich
        restschulden (Py.enumerate jahre) immobilienwert 0
  end.

End FinanceEngine.

(* ===================================================================== *)
(** ** tax_calculator.py *)
(* ===================================================================== *)

Module TaxCalculator.

Inductive AfATyp : Type :=
| ALTBAU_VOR_1925
| ALTBAU_AB_1925
| NEUBAU_AB_2023
| DENKMALSCHUTZ.

(** [afa_typ.value] *)
Definition value (t : AfATyp) : Q :=
  match t with
  | ALTBAU_VOR_1925 => 2.5
  | ALTBAU_AB_1925 => 2.0
  | NEUBAU_AB_2023 => 3.0
  | DENKMALSCHUTZ => 9.0
  end.

Inductive Bundesland : Type :=
| BADEN_WUERTTEMBERG
| BAYERN
| BERLIN
| BRANDENBURG
| BREMEN
| HAMBURG
| HESSEN
| MECKLENBURG_VORPOMMERN
| NIEDERSACHSEN
| NORDRHEIN_WESTFALEN
| RHEINLAND_PFALZ
| SAARLAND
| SACHSEN
| SACHSEN_ANHALT
| SCHLESWIG_HOLSTEIN
| THUERINGEN.

(** [bundesland.steuersatz] *)
Definition steuersatz (b : Bundesland) : Q :=
  match b with
  | BADEN_WUERTTEMBERG => 5.0
  | BAYERN => 3.5
  | BERLIN => 6.0
  | BRANDENBURG => 6.5
  | BREMEN => 5.0
  | HAMBURG => 5.5
  | HESSEN => 6.0
  | MECKLENBURG_VORPOMMERN => 6.0
  | NIEDERSACHSEN => 5.0
  | NORDRHEIN_WESTFALEN => 6.5
  | RHEINLAND_PFALZ => 5.0
  | SAARLAND => 6.5
  | SACHSEN => 5.5
  | SACHSEN_ANHALT => 5.0
  | SCHLESWIG_HOLSTEIN => 6.5
  | THUERINGEN => 5.0
  end.

Record SteuerlicheAbsetzbarkeit : Type := {
  afa_betrag : Q;
  absetzbare_zinsen : Q;
  werbungskosten : Q;
  einkuenfte_aus_vv : Q;
  steuervorteil : Q;
  steuervorteil_monatlich : Q
}.

Record Steuerdaten : Type := {
  kaufpreis : Q;
  gebaeude_anteil_prozent : Q;
  afa_typ : AfATyp;
  zinsen_jaehrlich : Q;
  mieteinnahmen_jaehrlich : Q;
  nicht_umlegbare_kosten_jaehrlich : Q;
  grenzsteuersatz_prozent : Q;
  sonstige_werbungskosten : Q
}.

(** The dictionary returned by [berechne_nebenkosten_nach_bundesland]. *)
Record Nebenkosten : Type := {
  grunderwerbsteuer : Q;
  grunderwerbsteuer_satz : Q;
  notar_und_grundbuch : Q;
  makler : Q;
  gesamt : Q;
  gesamt_prozent : Q
}.

Definition get_grunderwerbsteuer_satz (bundesland : Bundesland) : Q :=
  steuersatz bundesland.

Definition berechne_afa (kaufpreis gebaeude_anteil_prozent : Q)
    (afa_typ : AfATyp) : Exc Q :=
  gebaeudewert <- Py.truediv (kaufpreis * gebaeude_anteil_prozent) 100 ;;
  Py.truediv (gebaeudewert * value afa_typ) 100.

Definition berechne_steuerliche_absetzbarkeit (daten : Steuerdaten)
    : Exc SteuerlicheAbsetzbarkeit :=
  afa_betrag <- berechne_afa (kaufpreis daten)
                  (gebaeude_anteil_prozent daten) (afa_typ daten) ;;
  let absetzbare_zinsen := zinsen_jaehrlich daten in
  let werbungskosten :=
    afa_betrag + absetzbare_zinsen
    + nicht_umlegbare_kosten_jaehrlich daten
    + sonstige_werbungskosten daten in
  let einkuenfte_aus_vv := mieteinnahmen_jaehrlich daten - werbungskosten in
  steuerliche_auswirkung <-
    Py.truediv (einkuenfte_aus_vv * grenzsteuersatz_prozent daten) 100 ;;
  let steuervorteil := - steuerliche_auswirkung in
  steuervorteil_monatlich <- Py.truediv steuervorteil 12 ;;
  Ok {| afa_betrag := afa_betrag;
        absetzbare_zinsen := absetzbare_zinsen;
        werbungskosten := werbungskosten;
        einkuenfte_aus_vv := einkuenfte_aus_vv;
        steuervorteil := steuervorteil;
        steuervorteil_monatlich := steuervorteil_monatlich |}.

Definition berechne_nebenkosten_nach_bundesland
    (kaufpreis : Q) (bundesland : Bundesland) (mit_makler : bool)
    (makler_prozent notar_und_grundbuch_prozent : Q) : Exc Nebenkosten :=
  let grunderwerbsteuer_satz := steuersatz bundesland in
  let makler := if mit_makler then makler_prozent else 0.0 in
  grunderwerbsteuer <- Py.truediv (kaufpreis * grunderwerbsteuer_satz) 100 ;;
  notar_und_grundbuch <-
    Py.truediv (kaufpreis * notar_und_grundbuch_prozent) 100 ;;
  maklerkosten <- Py.truediv (kaufpreis * makler) 100 ;;
  Ok {| grunderwerbsteuer := grunderwerbsteuer;
        grunderwerbsteuer_satz := grunderwerbsteuer_satz;
        notar_und_grundbuch := notar_und_grundbuch;
        makler := maklerkosten;
        gesamt := grunderwerbsteuer + notar_und_grundbuch + maklerkosten;
        gesamt_prozent :=
          grunderwerbsteuer_satz + notar_und_grundbuch_prozent + makler |}.

Definition berechne_effektive_rendite_nach_steuern
    (brutto_rendite_prozent grenzsteuersatz_prozent : Q) : Exc Q :=
  q <- Py.truediv grenzsteuersatz_prozent 100 ;;
  Ok (brutto_rendite_prozent * (1 - q)).

End TaxCalculator.

(* ===================================================================== *)
(** ** finance_engine.py on binary64 *)
(* ===================================================================== *)

(** The schedule and the projection once more, now on the numbers Python
    computes with: a [float] is an IEEE 754 binary64 value, here the
    kernel's primitive [float], whose operations round exactly as the
    interpreter's do. Control flow, operand order and constants are those
    of the source; the literal [0] that [max(0, ...)] may return is the
    float zero it becomes in its DataFrame column. *)
Module Binary64.

Local Open Scope float_scope.

(** [a < b], [a <= b] *)
Definition lt (a b : float) : bool := a <? b.
Definition le (a b : float) : bool := a <=? b.

(** [min(a, b)]: the first argument unless the second is strictly
    smaller; [max(a, b)]: the first unless the second is strictly
    larger. A NaN operand makes every comparison false. *)
Definition min (a b : float) : float := if lt b a then b else a.
Definition max (a b : float) : float := if lt a b then b else a.

(** [a / b]: a zero divisor of either sign raises. *)
Definition truediv (a b : float) : Exc float :=
  if b =? 0 then Raise ZeroDivisionError else Ok (a / b).

Record TilgungsZeile : Type := {
  Jahr : Z;
  Zinsanteil : float;
  Tilgungsanteil : float;
  Restschuld : float;
  Zinsen_kumuliert : float;
  Tilgung_kumuliert : float
}.

Definition Tilgungsplan : Type := list TilgungsZeile.

Record VermoegensZeile : Type := {
  V_Jahr : Z;
  Immobilienwert : float;
  V_Restschuld : float;
  Nettovermoegen : float;
  Cashflow_kumuliert : float;
  Gesamtvermoegen : float
}.

Fixpoint tilgungsplan_schleife (zinssatz annuitaet : float) (jahre : list Z)
    (restschuld zinsen_kumuliert tilgung_kumuliert : float) : Tilgungsplan :=
  match jahre with
  | [] => []
  | jahr :: rest =>
      if le restschuld 0 then []
      else
        let zinsanteil := restschuld * zinssatz in
        let tilgungsanteil := min (annuitaet - zinsanteil) restschuld in
        let restschuld := max 0 (restschuld - tilgungsanteil) in
        let zinsen_kumuliert := zinsen_kumuliert + zinsanteil in
        let tilgung_kumuliert := tilgung_kumuliert + tilgungsanteil in
        {| Jahr := jahr;
           Zinsanteil := zinsanteil;
           Tilgungsanteil := tilgungsanteil;
           Restschuld := restschuld;
           Zinsen_kumuliert := zinsen_kumuliert;
           Tilgung_kumuliert := tilgung_kumuliert |}
        :: tilgungsplan_schleife zinssatz annuitaet rest
             restschuld zinsen_kumuliert tilgung_kumuliert
  end.

Definition berechne_tilgungsplan
    (darlehensbetrag zinssatz_prozent tilgung_prozent : float)
    (laufzeit_jahre : Z) : Exc Tilgungsplan :=
  zinssatz <- truediv zinssatz_prozent 100 ;;
  annuitaet <- truediv
                 (darlehensbetrag * (zinssatz_prozent + tilgung_prozent))
                 100 ;;
  Ok (tilgungsplan_schleife zinssatz annuitaet
        (Py.range 1 (laufzeit_jahre + 1)) darlehensbetrag 0 0).

Fixpoint vermoegen_schleife (wertsteigerung_prozent cashflow_jaehrlich : float)
    (restschulden : list float) (jahre : list (nat * Z))
    (immobilienwert cf_kumuliert : float) : Exc (list VermoegensZeile) :=
  match jahre with
  | [] => Ok []
  | (i, jahr) :: rest =>
      w <- truediv wertsteigerung_prozent 100 ;;
      let immobilienwert := immobilienwert * (1 + w) in
      restschuld_i <- Py.getitem restschulden i ;;
      let netto := immobilienwert - restschuld_i in
      let cf_kumuliert := cf_kumuliert + cashflow_jaehrlich in
      zeilen <- vermoegen_schleife wertsteigerung_prozent cashflow_jaehrlich
                  restschulden rest immobilienwert cf_kumuliert ;;
      Ok ({| V_Jahr := jahr;
             Immobilienwert := immobilienwert;
             V_Restschuld := restschuld_i;
             Nettovermoegen := netto;
             Cashflow_kumuliert := cf_kumuliert;
             Gesamtvermoegen := netto + cf_kumuliert |} :: zeilen)
  end.

Definition berechne_vermoegensaufbau
    (eigenkapital : float) (tilgungsplan : Tilgungsplan)
    (cashflow_jaehrlich wertsteigerung_prozent kaufpreis : float)
    : Exc (list VermoegensZeile) :=
  match tilgungsplan with
  | [] => Ok []
  | _ :: _ =>
      let jahre := map Jahr tilgungsplan in
      let restschulden := map Restschuld tilgungsplan in
      r0 <- Py.iloc0 (map Restschuld tilgungsplan) ;;
      k0 <- Py.iloc0 (map Tilgung_kumuliert tilgungsplan) ;;
      t0 <- Py.iloc0 (map Tilgungsanteil tilgungsplan) ;;
      let darlehensbetrag := r0 + k0 - t0 in
      let immobilienwert :=
        if lt 0 kaufpreis then kaufpreis
        else darlehensbetrag + eigenkapital in
      vermoegen_schleife wertsteigerung_prozent cashflow_jaehrlich
        restschulden (Py.enumerate jahre) immobilienwert 0
  end.

End Binary64.

(* ===================================================================== *)
(** ** Vocabulary of the specification *)
(* ===================================================================== *)

Import FinanceEngine.

(** [jede_zeile P start plan]: every row of [plan] satisfies [P] together
    with its balance at the start of the year, which is [start] for the
    first row and the remaining balance of the previous row afterwards. *)
Fixpoint jede_zeile (P : Q -> TilgungsZeile -> Prop) (start : Q)
    (plan : Tilgungsplan) : Prop :=
  match plan with
  | [] => True
  | zeile :: rest => P start zeile /\ jede_zeile P (Restschuld zeile) rest
  end.

(** The balance at the start of the year of row [i] (counted from 0). *)
Definition anfangsschuld (darlehensbetrag : Q) (plan : Tilgungsplan)
    (i : nat) : Q :=
  nth i (darlehensbetrag :: map Restschuld plan) 0.

(** A sequence of amounts that never goes up. *)
Definition nicht_steigend (xs : list Q) : Prop :=
  Sorted (fun x y => y <= x) xs.

(** The guarded ratio that [berechne_renditen] writes out four times:
    [(zaehler / nenner) * 100 if nenner > 0 else 0]. *)
Definition rendite (zaehler nenner : Q) : Exc Q :=
  if Py.lt 0 nenner
  then q <- Py.truediv zaehler nenner ;; Ok (q * 100)
  else Ok 0.

(** [hoch q n]: the factor [q] applied [n] times. *)
Fixpoint hoch (q : Q) (n : nat) : Q :=
  match n with
  | O => 1
  | S m => q * hoch q m
  end.

(** What one pass through the loop body establishes for the row it emits,
    in terms of the balance [start] it found. *)
Definition zeile_ok (zinssatz annuitaet start : Q) (zeile : TilgungsZeile)
    : Prop :=
  0 < start /\
  Zinsanteil zeile == start * zinssatz /\
  Tilgungsanteil zeile == Qmin (annuitaet - Zinsanteil zeile) start /\
  0 < Tilgungsanteil zeile /\
  Tilgungsanteil zeile <= start /\
  Restschuld zeile == start - Tilgungsanteil zeile /\
  0 <= Restschuld zeile.

(** An investor without tax liability: marginal rate 0 %, rental loss. *)
Definition steuerdaten_grenzsteuersatz_null : TaxCalculator.Steuerdaten :=
  {| TaxCalculator.kaufpreis := 300000;
     TaxCalculator.gebaeude_anteil_prozent := 75;
     TaxCalculator.afa_typ := TaxCalculator.ALTBAU_AB_1925;
     TaxCalculator.zinsen_jaehrlich := 8400;
     TaxCalculator.mieteinnahmen_jaehrlich := 12000;
     TaxCalculator.nicht_umlegbare_kosten_jaehrlich := 1200;
     TaxCalculator.grenzsteuersatz_prozent := 0;
     TaxCalculator.sonstige_werbungskosten := 0 |}.




(** *** On binary64 *)

(** [nichtnegativ x]: [x] is the zero that [max(0, ...)] returns or lies
    strictly above it; no NaN, no negative number and no negative zero
    qualifies. *)
Definition nichtnegativ (x : float) : Prop :=
  x = 0%float \/ Binary64.lt 0 x = true.

(** The balance at the start of the year of row [i] (counted from 0). *)
Definition anfangsschuld64 (darlehensbetrag : float)
    (plan : Binary64.Tilgungsplan) (i : nat) : float :=
  nth i (darlehensbetrag :: map Binary64.Restschuld plan) 0%float.

(** [jede_zeile64 P start plan]: every row satisfies [P] together with its
    balance at the start of the year. *)
Fixpoint jede_zeile64 (P : float -> Binary64.TilgungsZeile -> Prop)
    (start : float) (plan : Binary64.Tilgungsplan) : Prop :=
  match plan with
  | [] => True
  | zeile :: rest =>
      P start zeile /\ jede_zeile64 P (Binary64.Restschuld zeile) rest
  end.

(** What one pass through the loop body assigns, read off the body; the
    pass is only made from a balance above 0. *)
Definition zeile64 (zinssatz annuitaet start : float)
    (zeile : Binary64.TilgungsZeile) : Prop :=
  Binary64.lt 0 start = true /\
  Binary64.Zinsanteil zeile = (start * zinssatz)%float /\
  Binary64.Tilgungsanteil zeile
    = Binary64.min (annuitaet - Binary64.Zinsanteil zeile)%float start /\
  Binary64.Restschuld zeile
    = Binary64.max 0 (start - Binary64.Tilgungsanteil zeile)%float.

(* ===================================================================== *)
(** ** Facts about the Python operations *)
(* ===================================================================== *)

(** Division by a non-zero literal is written [x * (1 # c)] before linear
    arithmetic is called. *)
Ltac qnorm :=
  unfold Qdiv in *;
  change (/ 100) with (1 # 100) in *;
  change (/ 12) with (1 # 12) in *.

Lemma lt_true_iff (a b : Q) : Py.lt a b = true <-> a < b.
Proof.
  unfold Py.lt. rewrite negb_true_iff. split; intro H.
  - apply Qnot_le_lt. intro Hle. apply Qle_bool_iff in Hle. congruence.
  - destruct (Qle_bool b a) eqn:E; [|reflexivity].
    apply Qle_bool_iff in E. lra.
Qed.

Lemma lt_false_iff (a b : Q) : Py.lt a b = false <-> b <= a.
Proof.
  unfold Py.lt. rewrite negb_false_iff. apply Qle_bool_iff.
Qed.

Lemma le_true_iff (a b : Q) : Py.le a b = true <-> a <= b.
Proof. apply Qle_bool_iff. Qed.

Lemma le_false_iff (a b : Q) : Py.le a b = false <-> b < a.
Proof.
  unfold Py.le. split; intro H.
  - apply Qnot_le_lt. intro Hle. apply Qle_bool_iff in Hle. congruence.
  - destruct (Qle_bool a b) eqn:E; [|reflexivity].
    apply Qle_bool_iff in E. lra.
Qed.

Lemma min_cases (a b : Q) :
  (b < a /\ Py.min a b = b) \/ (a <= b /\ Py.min a b = a).
Proof.
  unfold Py.min. destruct (Py.lt b a) eqn:E.
  - left. split; [now apply lt_true_iff | reflexivity].
  - right. split; [now apply lt_false_iff | reflexivity].
Qed.

Lemma max_cases (a b : Q) :
  (a < b /\ Py.max a b = b) \/ (b <= a /\ Py.max a b = a).
Proof.
  unfold Py.max. destruct (Py.lt a b) eqn:E.
  - left. split; [now apply lt_true_iff | reflexivity].
  - right. split; [now apply lt_false_iff | reflexivity].
Qed.

(** Python's [min] and [max] agree with the mathematical ones. *)
Lemma min_Qmin (a b : Q) : Py.min a b == Qmin a b.
Proof.
  destruct (min_cases a b) as [[H ->]|[H ->]];
    destruct (Q.min_spec a b) as [[H' ->]|[H' ->]]; lra.
Qed.

Lemma max_Qmax (a b : Q) : Py.max a b == Qmax a b.
Proof.
  destruct (max_cases a b) as [[H ->]|[H ->]];
    destruct (Q.max_spec a b) as [[H' ->]|[H' ->]]; lra.
Qed.

Lemma truediv_100 (a : Q) : Py.truediv a 100 = Ok (a / 100).
Proof. reflexivity. Qed.

Lemma truediv_12 (a : Q) : Py.truediv a 12 = Ok (a / 12).
Proof. reflexivity. Qed.

Lemma truediv_pos (a b : Q) : 0 < b -> Py.truediv a b = Ok (a / b).
Proof.
  intro Hb. unfold Py.truediv.
  destruct (Qeq_bool b 0) eqn:E; [|reflexivity].
  apply Qeq_bool_eq in E. lra.
Qed.

Lemma bind_Ok {A B : Type} (a : A) (k : A -> Exc B) : bind (Ok a) k = k a.
Proof. reflexivity. Qed.

Lemma not_raises_Ok {A : Type} (a : A) : ~ raises (Ok a).
Proof. intros [e He]. discriminate He. Qed.

Lemma range_empty (lo hi : Z) : (hi <= lo)%Z -> Py.range lo hi = [].
Proof.
  intro H. unfold Py.range.
  replace (Z.to_nat (hi - lo)) with 0%nat by lia. reflexivity.
Qed.

Lemma range_cons (lo hi : Z) :
  (lo < hi)%Z -> Py.range lo hi = lo :: Py.range (lo + 1) hi.
Proof.
  intro H. unfold Py.range.
  replace (Z.to_nat (hi - lo)) with (S (Z.to_nat (hi - (lo + 1)))) by lia.
  cbn [seq map]. f_equal; [lia|].
  rewrite <- seq_shift, map_map. apply map_ext. intro i. lia.
Qed.

Lemma range_length (lo hi : Z) :
  length (Py.range lo hi) = Z.to_nat (hi - lo).
Proof. unfold Py.range. now rewrite length_map, length_seq. Qed.

(* ===================================================================== *)
(** ** Facts about binary64 comparisons *)
(* ===================================================================== *)

Section Gleitkomma.

Import Binary64.
Local Open Scope float_scope.

(** Case analysis on the IEEE 754 datum behind each float variable of the
    goal, after the comparisons are replaced by their specification. *)
Ltac sf_faelle :=
  unfold lt, le; rewrite ?ltb_spec, ?leb_spec, ?eqb_spec, ?sub_spec;
  change (Prim2SF 0) with (S754_zero false);
  unfold SFltb, SFleb, SFeqb, SF64sub;
  repeat match goal with
         | |- context [Prim2SF ?x] =>
             is_var x; destruct (Prim2SF x) as [[]|[]| |[] ? ?]
         end;
  cbn -[Z.sub Z.compare Pos.compare_cont];
  try reflexivity; try discriminate.

Lemma lt_irrefl (x : float) : lt x x = false.
Proof.
  sf_faelle; rewrite Z.compare_refl, Pos.compare_cont_refl; reflexivity.
Qed.


Lemma pos_nicht_le0 (x : float) : lt 0 x = true -> le x 0 = false.
Proof. sf_faelle. Qed.



Lemma pos_nicht_neg (x : float) : lt 0 x = true -> lt x 0 = false.
Proof. sf_faelle. Qed.

Lemma ueber_pos_nicht_neg (r x : float) :
  lt 0 r = true -> lt r x = true -> lt x 0 = false.
Proof. sf_faelle. Qed.

Lemma nichtnegativ_max (x : float) : nichtnegativ (max 0 x).
Proof.
  unfold nichtnegativ, max. destruct (lt 0 x) eqn:E; [right; exact E | now left].
Qed.



Lemma nichtnegativ_pos (x : float) :
  nichtnegativ x -> le x 0 = false -> lt 0 x = true.
Proof.
  intros [-> | H] Hle; [discriminate Hle | exact H].
Qed.

Lemma truediv64_100 (a : float) : truediv a 100 = Ok (a / 100).
Proof. reflexivity. Qed.

(* ===================================================================== *)
(** ** The amortization loop on binary64 *)
(* ===================================================================== *)

Lemma jede_zeile64_nth (P : float -> TilgungsZeile -> Prop) :
  forall plan start i zeile,
    jede_zeile64 P start plan ->
    nth_error plan i = Some zeile ->
    P (anfangsschuld64 start plan i) zeile.
Proof.
  induction plan as [|z0 rest IH]; intros start i zeile H Hi.
  - destruct i; discriminate Hi.
  - destruct H as [H1 H2]. destruct i as [|i]; cbn in Hi.
    + injection Hi as <-. exact H1.
    + apply (IH _ _ _ H2 Hi).
Qed.


Lemma schleife64_zeilen (zinssatz annuitaet : float) (jahre : list Z) :
  forall restschuld zk tk,
    nichtnegativ restschuld ->
    jede_zeile64 (zeile64 zinssatz annuitaet) restschuld
      (tilgungsplan_schleife zinssatz annuitaet jahre restschuld zk tk).
Proof.
  induction jahre as [|jahr rest IH]; intros restschuld zk tk Hr.
  - exact I.
  - cbn [tilgungsplan_schleife].
    destruct (le restschuld 0) eqn:E; [exact I|].
    cbn [jede_zeile64]. split.
    + unfold zeile64. cbn [Zinsanteil Tilgungsanteil Restschuld].
      split; [exact (nichtnegativ_pos _ Hr E)|]. repeat split.
    + cbn [Restschuld]. apply IH. apply nichtnegativ_max.
Qed.

Lemma schleife64_length (zinssatz annuitaet : float) (jahre : list Z) :
  forall restschuld zk tk,
    (length (tilgungsplan_schleife zinssatz annuitaet jahre restschuld zk tk)
     <= length jahre)%nat.
Proof.
  induction jahre as [|jahr rest IH]; intros restschuld zk tk.
  - apply Nat.le_refl.
  - cbn [tilgungsplan_schleife].
    destruct (le restschuld 0); cbn [length]; [lia|].
    apply le_n_S, IH.
Qed.


(** The schedule of a loan with a principal above 0. *)
Lemma tilgungsplan64_zeilen (d zp tp : float) (n : Z) :
  lt 0 d = true ->
  exists plan,
    berechne_tilgungsplan d zp tp n = Ok plan /\
    plan = tilgungsplan_schleife (zp / 100) (d * (zp + tp) / 100)
             (Py.range 1 (n + 1)) d 0 0 /\
    jede_zeile64 (zeile64 (zp / 100) (d * (zp + tp) / 100)) d plan /\
    (length plan <= Z.to_nat n)%nat /\
    ((0 < n)%Z -> plan <> []).
Proof.
  intro Hd. eexists. split; [reflexivity|]. split; [reflexivity|].
  split; [|split].
  - apply schleife64_zeilen. right. exact Hd.
  - eapply Nat.le_trans; [apply schleife64_length|].
    rewrite range_length. lia.
  - intro Hn. rewrite range_cons by lia. cbn [tilgungsplan_schleife].
    rewrite (pos_nicht_le0 d Hd). discriminate.
Qed.



(* ===================================================================== *)
(** ** Amortization schedule on binary64: remaining balance (C1) *)
(* ===================================================================== *)




(* ===================================================================== *)
(** ** Amortization schedule on binary64: the rows (C2, C10) *)
(* ===================================================================== *)

(** C2, as stated, fails in its sign clause: the loan of 1000 at 56.6 %
    with an initial amortization of 1e-17 % over 3 years lies in the
    domain, and the principal portion of its first row is
    -1.1368683772161603e-13 (annuity and interest portion differ only by
    rounding, the wrong way round). *)
Lemma C2_counterexample :
  lt 0 1000 = true /\ le 0 56.6 = true /\ lt 0 1e-17 = true /\ (0 < 3)%Z /\
  exists zeile rest,
    berechne_tilgungsplan 1000 56.6 1e-17 3 = Ok (zeile :: rest) /\
    Zinsanteil zeile = 566.00000000000011 /\
    Tilgungsanteil zeile = -1.1368683772161603e-13 /\
    lt (Tilgungsanteil zeile) 0 = true.
Proof.
  repeat (split; [reflexivity|]).
  eexists. eexists. split; [vm_compute; reflexivity|].
  repeat split.
Qed.

(** C2, amended: for every loan with principal > 0, rate >= 0, initial
    amortization rate > 0 and term > 0 the schedule has at least one row,
    and every row has interest portion = balance at the start of the year
    * rate and principal portion = min(annuity - interest portion, balance
    at the start of the year); the principal portion never exceeds that
    balance (which is above 0), and it is negative exactly when annuity -
    interest portion, as computed, is negative. (That it is never negative
    is not promised.) *)
Theorem C2_zins_und_tilgungsanteil_binary64 (d zp tp : float) (n : Z) :
  lt 0 d = true -> le 0 zp = true -> lt 0 tp = true -> (0 < n)%Z ->
  exists plan,
    berechne_tilgungsplan d zp tp n = Ok plan /\
    plan <> [] /\
    forall i zeile,
      nth_error plan i = Some zeile ->
      let start := anfangsschuld64 d plan i in
      let annuitaet := d * (zp + tp) / 100 in
      lt 0 start = true /\
      Zinsanteil zeile = start * (zp / 100) /\
      Tilgungsanteil zeile = min (annuitaet - Zinsanteil zeile) start /\
      lt start (Tilgungsanteil zeile) = false /\
      lt (Tilgungsanteil zeile) 0 = lt (annuitaet - Zinsanteil zeile) 0.
Proof.
  intros Hd _ _ Hn.
  destruct (tilgungsplan64_zeilen d zp tp n Hd)
    as (plan & Hplan & _ & Hok & _ & Hne).
  exists plan. split; [exact Hplan|]. split; [exact (Hne Hn)|].
  intros i zeile Hi start annuitaet.
  pose proof (jede_zeile64_nth _ _ _ _ _ Hok Hi) as Hrow.
  fold start in Hrow. unfold zeile64 in Hrow. fold annuitaet in Hrow.
  destruct Hrow as (Hpos & Hz & Ht & _).
  split; [exact Hpos|]. split; [exact Hz|]. split; [exact Ht|].
  rewrite Ht. unfold min.
  destruct (lt start (annuitaet - Zinsanteil zeile)) eqn:E.
  - split; [apply lt_irrefl|].
    rewrite (pos_nicht_neg _ Hpos).
    symmetry. exact (ueber_pos_nicht_neg _ _ Hpos E).
  - split; [exact E | reflexivity].
Qed.

Lemma C2_zins_und_tilgungsanteil_binary64_witness :
  lt 0 240000 = true /\ le 0 3.5 = true /\ lt 0 2.0 = true /\ (0 < 30)%Z /\
  exists plan,
    berechne_tilgungsplan 240000 3.5 2.0 30 = Ok plan /\
    plan <> [] /\
    forall i zeile,
      nth_error plan i = Some zeile ->
      let start := anfangsschuld64 240000 plan i in
      let annuitaet := 240000 * (3.5 + 2.0) / 100 in
      lt 0 start = true /\
      Zinsanteil zeile = start * (3.5 / 100) /\
      Tilgungsanteil zeile = min (annuitaet - Zinsanteil zeile) start /\
      lt start (Tilgungsanteil zeile) = false /\
      lt (Tilgungsanteil zeile) 0 = lt (annuitaet - Zinsanteil zeile) 0.
Proof.
  repeat (split; [reflexivity|]).
  apply (C2_zins_und_tilgungsanteil_binary64 240000 3.5 2.0 30); reflexivity.
Defined.




End Gleitkomma.

(* ===================================================================== *)
(** ** The amortization loop without rounding *)
(* ===================================================================== *)

Lemma jede_zeile_impl (P P' : Q -> TilgungsZeile -> Prop) :
  (forall start zeile, P start zeile -> P' start zeile) ->
  forall plan start, jede_zeile P start plan -> jede_zeile P' start plan.
Proof.
  intros HPP' plan. induction plan as [|zeile rest IH]; cbn; intros start H.
  - exact I.
  - destruct H as [H1 H2]. split; [now apply HPP' | now apply IH].
Qed.

Lemma jede_zeile_nth (P : Q -> TilgungsZeile -> Prop) :
  forall plan start i zeile,
    jede_zeile P start plan ->
    nth_error plan i = Some zeile ->
    P (anfangsschuld start plan i) zeile.
Proof.
  induction plan as [|z0 rest IH]; intros start i zeile H Hi.
  - destruct i; discriminate Hi.
  - destruct H as [H1 H2]. destruct i as [|i]; cbn in Hi.
    + injection Hi as <-. exact H1.
    + apply (IH _ _ _ H2 Hi).
Qed.

Lemma anfangsschuld_succ (d : Q) (plan : Tilgungsplan) (i : nat)
    (zeile : TilgungsZeile) :
  nth_error plan i = Some zeile ->
  anfangsschuld d plan (S i) = Restschuld zeile.
Proof.
  intro Hi. unfold anfangsschuld. cbn [nth].
  apply nth_error_nth. now rewrite nth_error_map, Hi.
Qed.

Lemma jede_zeile_nicht_steigend :
  forall plan start,
    jede_zeile (fun s zeile => Restschuld zeile <= s) start plan ->
    nicht_steigend (start :: map Restschuld plan).
Proof.
  unfold nicht_steigend.
  induction plan as [|zeile rest IH]; cbn; intros start H.
  - constructor; constructor.
  - destruct H as [H1 H2]. constructor; [now apply IH | now constructor].
Qed.

Section Schleife.

Variables zinssatz annuitaet : Q.
Hypothesis zinssatz_nonneg : 0 <= zinssatz.

(** One pass through the loop body, from a positive balance whose interest
    is below the annuity. *)
Lemma schritt (restschuld : Q) :
  0 < restschuld ->
  restschuld * zinssatz < annuitaet ->
  let zinsanteil := restschuld * zinssatz in
  let tilgungsanteil := Py.min (annuitaet - zinsanteil) restschuld in
  let restschuld' := Py.max 0 (restschuld - tilgungsanteil) in
  0 < tilgungsanteil /\
  tilgungsanteil <= restschuld /\
  tilgungsanteil == Qmin (annuitaet - zinsanteil) restschuld /\
  restschuld' == restschuld - tilgungsanteil /\
  0 <= restschuld' /\
  restschuld' * zinssatz < annuitaet.
Proof.
  intros Hr Ha zinsanteil tilgungsanteil restschuld'.
  assert (0 < tilgungsanteil /\ tilgungsanteil <= restschuld) as [Ht1 Ht2].
  { subst tilgungsanteil.
    destruct (min_cases (annuitaet - zinsanteil) restschuld)
      as [[H ->]|[H ->]]; subst zinsanteil; lra. }
  assert (restschuld' == restschuld - tilgungsanteil) as Hr'.
  { subst restschuld'.
    destruct (max_cases 0 (restschuld - tilgungsanteil))
      as [[H ->]|[H ->]]; lra. }
  repeat split; try assumption.
  - apply min_Qmin.
  - lra.
  - assert (restschuld' <= restschuld) as Hle by lra.
    assert (restschuld' * zinssatz <= restschuld * zinssatz) as Hm
      by (apply Qmult_le_compat_r; assumption).
    lra.
Qed.

Lemma schleife_zeilen (jahre : list Z) :
  forall restschuld zk tk,
    restschuld * zinssatz < annuitaet ->
    jede_zeile (zeile_ok zinssatz annuitaet) restschuld
      (tilgungsplan_schleife zinssatz annuitaet jahre restschuld zk tk).
Proof.
  induction jahre as [|jahr rest IH]; intros restschuld zk tk Ha.
  - exact I.
  - cbn [tilgungsplan_schleife].
    destruct (Py.le restschuld 0) eqn:E; [exact I|].
    apply le_false_iff in E.
    destruct (schritt restschuld E Ha) as (H1 & H2 & H3 & H4 & H5 & H6).
    cbn [jede_zeile]. split.
    + unfold zeile_ok. cbn. repeat split; assumption.
    + cbn [Restschuld]. apply IH. exact H6.
Qed.

Lemma schleife_length (jahre : list Z) :
  forall restschuld zk tk,
    (length (tilgungsplan_schleife zinssatz annuitaet jahre restschuld zk tk)
     <= length jahre)%nat.
Proof.
  induction jahre as [|jahr rest IH]; intros restschuld zk tk.
  - apply Nat.le_refl.
  - cbn [tilgungsplan_schleife].
    destruct (Py.le restschuld 0); cbn [length]; [lia|].
    apply le_n_S, IH.
Qed.

End Schleife.

Lemma jede_zeile_Forall (P : TilgungsZeile -> Prop) :
  forall plan start,
    jede_zeile (fun _ zeile => P zeile) start plan -> Forall P plan.
Proof.
  induction plan as [|zeile rest IH]; cbn; intros start H.
  - constructor.
  - destruct H as [H1 H2]. constructor; [exact H1 | apply (IH _ H2)].
Qed.

(** The schedule of a loan within the domain of the specification: the
    call succeeds, and every row is the outcome of one well-behaved pass
    through the loop body. *)
Lemma tilgungsplan_zeilen (d zp tp : Q) (n : Z) :
  0 < d -> 0 <= zp -> 0 < tp ->
  exists plan,
    berechne_tilgungsplan d zp tp n = Ok plan /\
    jede_zeile (zeile_ok (zp / 100) (d * (zp + tp) / 100)) d plan /\
    (length plan <= Z.to_nat n)%nat.
Proof.
  intros Hd Hzp Htp.
  eexists. split; [reflexivity|]. split.
  - apply schleife_zeilen; qnorm; [lra | nra].
  - eapply Nat.le_trans; [apply schleife_length|].
    rewrite range_length. lia.
Qed.

Lemma tilgungsplan_nonempty (d zp tp : Q) (n : Z) (plan : Tilgungsplan) :
  0 < d -> (0 < n)%Z ->
  berechne_tilgungsplan d zp tp n = Ok plan -> plan <> [].
Proof.
  intros Hd Hn H. unfold berechne_tilgungsplan in H.
  rewrite !truediv_100 in H. cbn [bind] in H.
  rewrite range_cons in H by lia. cbn [tilgungsplan_schleife] in H.
  assert (Py.le d 0 = false) as E by (apply le_false_iff; exact Hd).
  rewrite E in H. injection H as <-. discriminate.
Qed.

(** A row that is followed by another one has left a positive balance. *)
Lemma folgezeile_restschuld_pos (z a d : Q) (plan : Tilgungsplan) (i : nat)
    (zeile : TilgungsZeile) :
  jede_zeile (zeile_ok z a) d plan ->
  nth_error plan i = Some zeile ->
  (S i < length plan)%nat ->
  0 < Restschuld zeile.
Proof.
  intros Hplan Hi Hlt.
  destruct (nth_error plan (S i)) as [zeile'|] eqn:Hi'.
  - pose proof (jede_zeile_nth _ _ _ _ _ Hplan Hi') as Hok.
    rewrite (anfangsschuld_succ d plan i zeile Hi) in Hok.
    exact (proj1 Hok).
  - apply nth_error_None in Hi'. lia.
Qed.

(* ===================================================================== *)
(** ** The schedule without rounding *)
(* ===================================================================== *)

(** The three lemmas of this section read the amounts as exact rationals.
    They show what the schedule does when rounding is left aside; the
    counterexamples above show where binary64 departs from it. *)

(** Without rounding, the schedule of a loan with principal > 0, rate >= 0
    and amortization rate > 0 is non-empty for a term > 0, has at most
    [term] rows, its balances never increase from the principal on and
    are >= 0, and a balance of 0 stands only in the last row. *)
Lemma restschuld_monoton_exakt (d zp tp : Q) (n : Z) :
  0 < d -> 0 <= zp -> 0 < tp -> (0 < n)%Z ->
  exists plan,
    berechne_tilgungsplan d zp tp n = Ok plan /\
    plan <> [] /\
    (Z.of_nat (length plan) <= n)%Z /\
    nicht_steigend (d :: map Restschuld plan) /\
    Forall (fun zeile => 0 <= Restschuld zeile) plan /\
    forall i zeile,
      nth_error plan i = Some zeile ->
      Restschuld zeile == 0 ->
      S i = length plan.
Proof.
  intros Hd Hzp Htp Hn.
  destruct (tilgungsplan_zeilen d zp tp n Hd Hzp Htp)
    as (plan & Hplan & Hzeilen & Hlen).
  exists plan. split; [exact Hplan|].
  split; [exact (tilgungsplan_nonempty d zp tp n plan Hd Hn Hplan)|].
  split; [lia|]. split; [|split].
  - apply jede_zeile_nicht_steigend.
    revert Hzeilen. apply jede_zeile_impl.
    unfold zeile_ok. intros start zeile H. lra.
  - apply (jede_zeile_Forall _ plan d).
    revert Hzeilen. apply jede_zeile_impl.
    unfold zeile_ok. intros start zeile H. lra.
  - intros i zeile Hi Hnull.
    assert (i < length plan)%nat as Hlt
      by (apply nth_error_Some; congruence).
    destruct (Nat.eq_dec (S i) (length plan)) as [E|E]; [exact E|].
    assert (0 < Restschuld zeile) as Hpos
      by (eapply (folgezeile_restschuld_pos _ _ d plan i);
          [exact Hzeilen | exact Hi | lia]).
    lra.
Qed.

(** Without rounding, every row has interest portion = balance at the
    start of the year * rate and principal portion = min(annuity -
    interest portion, that balance), and the principal portion is never
    negative and never above that balance. *)
Lemma zins_und_tilgungsanteil_exakt (d zp tp : Q) (n : Z) :
  0 < d -> 0 <= zp -> 0 < tp -> (0 < n)%Z ->
  exists plan,
    berechne_tilgungsplan d zp tp n = Ok plan /\
    forall i zeile,
      nth_error plan i = Some zeile ->
      let start := anfangsschuld d plan i in
      let annuitaet := d * (zp + tp) / 100 in
      Zinsanteil zeile == start * (zp / 100) /\
      Tilgungsanteil zeile == Qmin (annuitaet - Zinsanteil zeile) start /\
      0 <= Tilgungsanteil zeile /\
      Tilgungsanteil zeile <= start.
Proof.
  intros Hd Hzp Htp Hn.
  destruct (tilgungsplan_zeilen d zp tp n Hd Hzp Htp)
    as (plan & Hplan & Hzeilen & _).
  exists plan. split; [exact Hplan|].
  intros i zeile Hi start annuitaet.
  pose proof (jede_zeile_nth _ _ _ _ _ Hzeilen Hi) as Hok.
  fold start in Hok. unfold zeile_ok in Hok. fold annuitaet in Hok.
  destruct Hok as (_ & H1 & H2 & H3 & H4 & _).
  repeat split; try assumption. lra.
Qed.

(** Without rounding, no row pays more than the annuity, every row that is
    not the last pays exactly the annuity, and a row that pays less is the
    last one, clamped to the balance at the start of its year. *)
Lemma rate_gleich_annuitaet_exakt (d zp tp : Q) (n : Z) :
  0 < d -> 0 <= zp -> 0 < tp -> (0 < n)%Z ->
  exists plan,
    berechne_tilgungsplan d zp tp n = Ok plan /\
    forall i zeile,
      nth_error plan i = Some zeile ->
      let annuitaet := d * (zp + tp) / 100 in
      let rate := Zinsanteil zeile + Tilgungsanteil zeile in
      rate <= annuitaet /\
      ((S i < length plan)%nat -> rate == annuitaet) /\
      (rate < annuitaet ->
       S i = length plan /\
       Tilgungsanteil zeile == anfangsschuld d plan i).
Proof.
  intros Hd Hzp Htp Hn.
  destruct (tilgungsplan_zeilen d zp tp n Hd Hzp Htp)
    as (plan & Hplan & Hzeilen & _).
  exists plan. split; [exact Hplan|].
  intros i zeile Hi annuitaet rate.
  pose proof (jede_zeile_nth _ _ _ _ _ Hzeilen Hi) as Hok.
  unfold zeile_ok in Hok. fold annuitaet in Hok.
  destruct Hok as (H0 & H1 & H2 & H3 & H4 & H5 & H6).
  assert (i < length plan)%nat as Hlt
    by (apply nth_error_Some; congruence).
  assert ((S i < length plan)%nat -> 0 < Restschuld zeile) as Hfolge
    by (intro Hs;
        exact (folgezeile_restschuld_pos _ _ d plan i zeile Hzeilen Hi Hs)).
  subst rate.
  destruct (Q.min_spec (annuitaet - Zinsanteil zeile)
              (anfangsschuld d plan i)) as [[Hm Hmin]|[Hm Hmin]];
    rewrite Hmin in H2.
  - split; [lra|]. split; [intros _; lra|]. intro Hless. lra.
  - split; [lra|]. split.
    + intro Hs. specialize (Hfolge Hs). lra.
    + intros _. split; [|exact H2].
      destruct (Nat.eq_dec (S i) (length plan)) as [E|E]; [exact E|].
      assert (0 < Restschuld zeile) by (apply Hfolge; lia). lra.
Qed.

(* ===================================================================== *)
(** ** The scenario of the specification (C7) *)
(* ===================================================================== *)

(** The first pass through the loop, for a positive principal and a term
    of at least one year. *)
Lemma tilgungsplan_erste_zeile (d zp tp : Q) (n : Z) :
  0 < d -> (0 < n)%Z ->
  let zinssatz := zp / 100 in
  let annuitaet := d * (zp + tp) / 100 in
  let zinsanteil := d * zinssatz in
  let tilgungsanteil := Py.min (annuitaet - zinsanteil) d in
  let restschuld := Py.max 0 (d - tilgungsanteil) in
  berechne_tilgungsplan d zp tp n =
  Ok ({| Jahr := 1;
         Zinsanteil := zinsanteil;
         Tilgungsanteil := tilgungsanteil;
         Restschuld := restschuld;
         Zinsen_kumuliert := 0 + zinsanteil;
         Tilgung_kumuliert := 0 + tilgungsanteil |}
      :: tilgungsplan_schleife zinssatz annuitaet (Py.range (1 + 1) (n + 1))
           restschuld (0 + zinsanteil) (0 + tilgungsanteil)).
Proof.
  intros Hd Hn. cbv zeta. unfold berechne_tilgungsplan.
  rewrite !truediv_100. cbn [bind].
  rewrite range_cons by lia. cbn [tilgungsplan_schleife].
  assert (Py.le d 0 = false) as E by (apply le_false_iff; exact Hd).
  rewrite E. reflexivity.
Qed.

(** C7: for principal 240000, rate 3.5 %, amortization 2.0 % and term 30,
    [berechne_annuitaet] returns the annual payment 13200, and the first
    row of [berechne_tilgungsplan] has interest portion 8400, principal
    portion 4800 and remaining balance 235200. *)
Theorem C7_szenario_240000 :
  (exists ergebnis,
     berechne_annuitaet 240000 3.5 2.0 30 = Ok ergebnis /\
     jaehrliche_rate ergebnis == 13200) /\
  (exists zeile rest,
     berechne_tilgungsplan 240000 3.5 2.0 30 = Ok (zeile :: rest) /\
     Jahr zeile = 1%Z /\
     Zinsanteil zeile == 8400 /\
     Tilgungsanteil zeile == 4800 /\
     Restschuld zeile == 235200).
Proof.
  split.
  - eexists. split; [reflexivity|]. cbn [jaehrliche_rate]. reflexivity.
  - eexists. eexists. split.
    + apply tilgungsplan_erste_zeile; reflexivity.
    + cbn [Jahr Zinsanteil Tilgungsanteil Restschuld].
      repeat split; vm_compute; reflexivity.
Qed.

(* ===================================================================== *)
(** ** Financing summary (C4) *)
(* ===================================================================== *)

(** C4: for principal > 0, rate >= 0, amortization rate > 0 and term > 0,
    [berechne_annuitaet] returns the annual payment
    principal * (rate + amortization) / 100, a total cost equal to
    annual payment * term floored at the principal (hence >= principal),
    and a total interest equal to total cost - principal floored at 0
    (hence >= 0), whether the total cost is taken before or after its own
    floor. *)
Theorem C4_gesamtkosten_und_zinsen (d zp tp : Q) (n : Z) :
  0 < d -> 0 <= zp -> 0 < tp -> (0 < n)%Z ->
  exists e,
    berechne_annuitaet d zp tp n = Ok e /\
    jaehrliche_rate e == d * (zp + tp) / 100 /\
    gesamtkosten e == Qmax (jaehrliche_rate e * inject_Z n) d /\
    d <= gesamtkosten e /\
    zinsen_gesamt e == Qmax (jaehrliche_rate e * inject_Z n - d) 0 /\
    zinsen_gesamt e == Qmax (gesamtkosten e - d) 0 /\
    0 <= zinsen_gesamt e.
Proof.
  intros _ _ _ _. eexists. split; [reflexivity|].
  cbn [jaehrliche_rate gesamtkosten zinsen_gesamt].
  set (jr := d * (zp + tp) / 100).
  set (gk := jr * inject_Z n).
  pose proof (max_Qmax gk d) as Hg.
  pose proof (max_Qmax (gk - d) 0) as Hz.
  destruct (Q.max_spec gk d) as [[Hc Hd]|[Hc Hd]];
    destruct (Q.max_spec (gk - d) 0) as [[Hc' Hd']|[Hc' Hd']];
    destruct (Q.max_spec (Py.max gk d - d) 0) as [[Hc'' Hd'']|[Hc'' Hd'']];
    repeat split; lra.
Qed.

Lemma C4_gesamtkosten_und_zinsen_witness :
  0 < 240000 /\ 0 <= 3.5 /\ 0 < 2.0 /\ (0 < 30)%Z /\
  exists e,
    berechne_annuitaet 240000 3.5 2.0 30 = Ok e /\
    jaehrliche_rate e == 240000 * (3.5 + 2.0) / 100 /\
    gesamtkosten e == Qmax (jaehrliche_rate e * inject_Z 30) 240000 /\
    240000 <= gesamtkosten e /\
    zinsen_gesamt e == Qmax (jaehrliche_rate e * inject_Z 30 - 240000) 0 /\
    zinsen_gesamt e == Qmax (gesamtkosten e - 240000) 0 /\
    0 <= zinsen_gesamt e.
Proof.
  split; [reflexivity|]. split; [discriminate|].
  split; [reflexivity|]. split; [reflexivity|].
  apply (C4_gesamtkosten_und_zinsen 240000 3.5 2.0 30);
    [reflexivity | discriminate | reflexivity | reflexivity].
Defined.

(* ===================================================================== *)
(** ** Return ratios (C6) *)
(* ===================================================================== *)

Lemma rendite_Ok (zaehler nenner : Q) :
  exists q, rendite zaehler nenner = Ok q /\ (nenner <= 0 -> q = 0).
Proof.
  unfold rendite. destruct (Py.lt 0 nenner) eqn:E.
  - apply lt_true_iff in E. rewrite (truediv_pos _ _ E). cbn [bind].
    eexists. split; [reflexivity|]. intro H. lra.
  - eexists. split; [reflexivity|]. reflexivity.
Qed.

(** C6: for every input, [berechne_renditen] returns (no division error,
    nor any other), and each ratio is exactly 0 whenever its denominator
    is <= 0, whatever the numerator: gross yield for the purchase price,
    net yield (and its alias, the asset-level return) and cash-flow return
    for price + closing costs, equity return for the equity. *)
Theorem C6_renditen_ohne_division_durch_null
    (kaufpreis nebenkosten eigenkapital brutto netto cashflow : Q) :
  exists r,
    berechne_renditen kaufpreis nebenkosten eigenkapital brutto netto cashflow
    = Ok r /\
    (kaufpreis <= 0 -> brutto_mietrendite r = 0) /\
    (kaufpreis + nebenkosten <= 0 -> netto_mietrendite r = 0) /\
    (kaufpreis + nebenkosten <= 0 -> objektrendite r = 0) /\
    (eigenkapital <= 0 -> eigenkapitalrendite r = 0) /\
    (kaufpreis + nebenkosten <= 0 -> cashflow_rendite r = 0).
Proof.
  change (berechne_renditen kaufpreis nebenkosten eigenkapital brutto netto
            cashflow)
    with (q1 <- rendite brutto kaufpreis ;;
          q2 <- rendite netto (kaufpreis + nebenkosten) ;;
          q3 <- rendite cashflow eigenkapital ;;
          q4 <- rendite cashflow (kaufpreis + nebenkosten) ;;
          Ok {| brutto_mietrendite := q1;
                netto_mietrendite := q2;
                eigenkapitalrendite := q3;
                objektrendite := q2;
                cashflow_rendite := q4 |}).
  destruct (rendite_Ok brutto kaufpreis) as (q1 & -> & H1).
  destruct (rendite_Ok netto (kaufpreis + nebenkosten)) as (q2 & -> & H2).
  destruct (rendite_Ok cashflow eigenkapital) as (q3 & -> & H3).
  destruct (rendite_Ok cashflow (kaufpreis + nebenkosten)) as (q4 & -> & H4).
  cbn [bind]. eexists. split; [reflexivity|]. cbn. auto.
Qed.

Lemma C6_renditen_ohne_division_durch_null_witness :
  exists r,
    berechne_renditen 0 0 0 12000 10560 (-3000) = Ok r /\
    brutto_mietrendite r = 0 /\
    netto_mietrendite r = 0 /\
    objektrendite r = 0 /\
    eigenkapitalrendite r = 0 /\
    cashflow_rendite r = 0.
Proof.
  destruct (C6_renditen_ohne_division_durch_null 0 0 0 12000 10560 (-3000))
    as (r & Hr & H1 & H2 & H3 & H4 & H5).
  exists r. split; [exact Hr|].
  repeat split;
    [apply H1 | apply H2 | apply H3 | apply H4 | apply H5]; discriminate.
Defined.

(* ===================================================================== *)
(** ** Tax deductibility (C5) *)
(* ===================================================================== *)

Import TaxCalculator.

(** C5, as stated, fails in its sign clause: at a marginal rate of 0 % the
    taxable result is negative (12000 - (4500 + 8400 + 1200) = -2100) and
    the tax effect is 0, which is not a positive benefit. *)
Lemma C5_counterexample :
  exists e,
    berechne_steuerliche_absetzbarkeit steuerdaten_grenzsteuersatz_null
    = Ok e /\
    einkuenfte_aus_vv e == -2100 /\
    einkuenfte_aus_vv e < 0 /\
    steuervorteil e == 0 /\
    ~ 0 < steuervorteil e.
Proof.
  eexists. split; [reflexivity|].
  repeat split; vm_compute; congruence.
Qed.

(** C5, amended: for every [Steuerdaten] record,
    [berechne_steuerliche_absetzbarkeit] returns
    depreciation = price * building share / 100 * class rate / 100,
    deductible expenses = depreciation + interest + non-recoverable costs
    + other costs, taxable result = rental income - deductible expenses,
    tax effect = -(taxable result * marginal rate / 100) and monthly tax
    effect = tax effect / 12; when the marginal rate is positive, a
    negative taxable result yields a positive tax effect and a positive
    taxable result a negative one, and when it is 0 the tax effect is 0. *)
Theorem C5_steuerliche_absetzbarkeit (daten : Steuerdaten) :
  exists e,
    berechne_steuerliche_absetzbarkeit daten = Ok e /\
    afa_betrag e ==
      kaufpreis daten * gebaeude_anteil_prozent daten / 100
      * value (afa_typ daten) / 100 /\
    absetzbare_zinsen e = zinsen_jaehrlich daten /\
    werbungskosten e ==
      afa_betrag e + zinsen_jaehrlich daten
      + nicht_umlegbare_kosten_jaehrlich daten
      + sonstige_werbungskosten daten /\
    einkuenfte_aus_vv e == mieteinnahmen_jaehrlich daten - werbungskosten e /\
    steuervorteil e ==
      - (einkuenfte_aus_vv e * grenzsteuersatz_prozent daten / 100) /\
    steuervorteil_monatlich e == steuervorteil e / 12 /\
    (0 < grenzsteuersatz_prozent daten ->
     (einkuenfte_aus_vv e < 0 -> 0 < steuervorteil e) /\
     (0 < einkuenfte_aus_vv e -> steuervorteil e < 0)) /\
    (grenzsteuersatz_prozent daten == 0 -> steuervorteil e == 0).
Proof.
  eexists. split; [reflexivity|].
  cbn [afa_betrag absetzbare_zinsen werbungskosten einkuenfte_aus_vv
       steuervorteil steuervorteil_monatlich].
  set (ev := mieteinnahmen_jaehrlich daten - _).
  repeat split; try reflexivity.
  - qnorm. intro Hneg. nra.
  - qnorm. intro Hpos. nra.
  - intro H0. rewrite H0. qnorm. lra.
Qed.

Lemma C5_steuerliche_absetzbarkeit_witness :
  exists e,
    berechne_steuerliche_absetzbarkeit
      {| kaufpreis := 300000;
         gebaeude_anteil_prozent := 75;
         afa_typ := ALTBAU_AB_1925;
         zinsen_jaehrlich := 8400;
         mieteinnahmen_jaehrlich := 12000;
         nicht_umlegbare_kosten_jaehrlich := 1200;
         grenzsteuersatz_prozent := 35;
         sonstige_werbungskosten := 0 |} = Ok e /\
    afa_betrag e == 4500 /\
    einkuenfte_aus_vv e == -2100 /\
    0 < steuervorteil e.
Proof.
  destruct (C5_steuerliche_absetzbarkeit
              {| kaufpreis := 300000;
                 gebaeude_anteil_prozent := 75;
                 afa_typ := ALTBAU_AB_1925;
                 zinsen_jaehrlich := 8400;
                 mieteinnahmen_jaehrlich := 12000;
                 nicht_umlegbare_kosten_jaehrlich := 1200;
                 grenzsteuersatz_prozent := 35;
                 sonstige_werbungskosten := 0 |})
    as (e & He & Hafa & _ & Hwk & Hev & _ & _ & Hsign & _).
  exists e. split; [exact He|].
  cbn [kaufpreis gebaeude_anteil_prozent afa_typ zinsen_jaehrlich
       mieteinnahmen_jaehrlich nicht_umlegbare_kosten_jaehrlich
       grenzsteuersatz_prozent sonstige_werbungskosten value] in *.
  assert (afa_betrag e == 4500) as Hafa'
    by (rewrite Hafa; vm_compute; reflexivity).
  assert (einkuenfte_aus_vv e == -2100) as Hev'
    by (rewrite Hev, Hwk, Hafa'; vm_compute; reflexivity).
  split; [exact Hafa'|]. split; [exact Hev'|].
  apply Hsign; [reflexivity|]. rewrite Hev'. reflexivity.
Defined.

(* ===================================================================== *)
(** ** Closing costs (C9) *)
(* ===================================================================== *)

(** C9, as stated, fails in its first half: the calculator does not reject
    a non-positive price. For a price of -100000 in Bayern with broker it
    returns the breakdown -3500, -2000, -3570 with total -9070, and the
    calculator of [finance_engine.py] behaves alike. *)
Lemma C9_counterexample :
  -100000 <= 0 /\
  ~ raises (berechne_nebenkosten_nach_bundesland (-100000) BAYERN true
              3.57 2.0) /\
  ~ raises (FinanceEngine.berechne_nebenkosten (-100000) 6.0 2.0 3.57) /\
  exists nk,
    berechne_nebenkosten_nach_bundesland (-100000) BAYERN true 3.57 2.0
    = Ok nk /\
    grunderwerbsteuer nk == -3500 /\
    notar_und_grundbuch nk == -2000 /\
    makler nk == -3570 /\
    gesamt nk == -9070.
Proof.
  split; [discriminate|].
  split; [apply not_raises_Ok|]. split; [apply not_raises_Ok|].
  eexists. split; [reflexivity|]. repeat split.
Qed.

(** C9, amended: the closing-cost calculator validates nothing and has no
    error condition. For every purchase price, positive or not, it returns
    the breakdown: transfer tax = price * regional rate / 100,
    notary/registration = price * notary rate / 100, broker =
    price * broker rate / 100 when the broker flag is set and 0 otherwise,
    their total, and the total percentage; as a function of its arguments
    alone it is pure. [berechne_nebenkosten] of [finance_engine.py] has no
    broker flag and returns the three costs likewise, with the total
    price * (sum of the three rates) / 100. *)
Theorem C9_nebenkosten_total_und_aufgeschluesselt :
  (forall (preis : Q) (bundesland : Bundesland) (mit_makler : bool)
          (makler_prozent notar_prozent : Q),
     exists nk,
       berechne_nebenkosten_nach_bundesland preis bundesland mit_makler
         makler_prozent notar_prozent = Ok nk /\
       grunderwerbsteuer nk == preis * steuersatz bundesland / 100 /\
       grunderwerbsteuer_satz nk = steuersatz bundesland /\
       notar_und_grundbuch nk == preis * notar_prozent / 100 /\
       makler nk ==
         (if mit_makler then preis * makler_prozent / 100 else 0) /\
       gesamt nk ==
         grunderwerbsteuer nk + notar_und_grundbuch nk + makler nk /\
       gesamt_prozent nk ==
         steuersatz bundesland + notar_prozent
         + (if mit_makler then makler_prozent else 0)) /\
  (forall preis grunderwerbsteuer_prozent notar_prozent makler_prozent : Q,
     exists nk,
       FinanceEngine.berechne_nebenkosten preis grunderwerbsteuer_prozent
         notar_prozent makler_prozent = Ok nk /\
       FinanceEngine.grunderwerbsteuer nk
         == preis * grunderwerbsteuer_prozent / 100 /\
       FinanceEngine.notar_und_grundbuch nk == preis * notar_prozent / 100 /\
       FinanceEngine.makler nk == preis * makler_prozent / 100 /\
       FinanceEngine.gesamt nk ==
         preis * (grunderwerbsteuer_prozent + notar_prozent + makler_prozent)
         / 100).
Proof.
  split.
  - intros preis bundesland mit_makler makler_prozent notar_prozent.
    eexists. split; [reflexivity|].
    cbn [grunderwerbsteuer grunderwerbsteuer_satz notar_und_grundbuch makler
         gesamt gesamt_prozent].
    destruct mit_makler; repeat split; try reflexivity; qnorm; lra.
  - intros preis g n m.
    eexists. split; [reflexivity|].
    cbn [FinanceEngine.grunderwerbsteuer FinanceEngine.notar_und_grundbuch
         FinanceEngine.makler FinanceEngine.gesamt].
    repeat split; try reflexivity; qnorm; lra.
Qed.

(* ===================================================================== *)
(** ** Wealth projection (C8, C3) *)
(* ===================================================================== *)

Lemma tilgungsplan_ohne_darlehen (d zp tp : Q) (n : Z) :
  d <= 0 -> berechne_tilgungsplan d zp tp n = Ok [].
Proof.
  intro Hd. unfold berechne_tilgungsplan.
  rewrite !truediv_100. cbn [bind]. f_equal.
  destruct (Z_lt_le_dec 0 n) as [Hn|Hn].
  - rewrite range_cons by lia. cbn [tilgungsplan_schleife].
    assert (Py.le d 0 = true) as E by (apply le_true_iff; exact Hd).
    now rewrite E.
  - now rewrite range_empty by lia.
Qed.

Lemma tilgungsplan_ohne_laufzeit (d zp tp : Q) (n : Z) :
  (n <= 0)%Z -> berechne_tilgungsplan d zp tp n = Ok [].
Proof.
  intro Hn. unfold berechne_tilgungsplan.
  rewrite !truediv_100. cbn [bind].
  now rewrite range_empty by lia.
Qed.

(** C8: on an empty amortization schedule [berechne_vermoegensaufbau]
    returns the empty projection and raises nothing, whatever its other
    arguments; a term of 0 years and a principal of 0 are two ways for
    [berechne_tilgungsplan] to produce that empty schedule. *)
Theorem C8_leerer_tilgungsplan :
  (forall eigenkapital cashflow wertsteigerung preis : Q,
     berechne_vermoegensaufbau eigenkapital [] cashflow wertsteigerung preis
     = Ok []) /\
  (forall d zp tp : Q, berechne_tilgungsplan d zp tp 0 = Ok []) /\
  (forall (zp tp : Q) (n : Z), berechne_tilgungsplan 0 zp tp n = Ok []) /\
  (forall (d zp tp : Q) (n : Z) (eigenkapital cashflow wertsteigerung preis : Q),
     (n = 0%Z \/ d == 0) ->
     bind (berechne_tilgungsplan d zp tp n)
       (fun plan =>
          berechne_vermoegensaufbau eigenkapital plan cashflow
            wertsteigerung preis)
     = Ok []).
Proof.
  split; [reflexivity|]. split; [|split].
  - intros d zp tp. apply tilgungsplan_ohne_laufzeit. lia.
  - intros zp tp n. apply tilgungsplan_ohne_darlehen. lra.
  - intros d zp tp n ek cf w kp [Hn|Hd].
    + rewrite tilgungsplan_ohne_laufzeit by lia. reflexivity.
    + rewrite tilgungsplan_ohne_darlehen by lra. reflexivity.
Qed.

Lemma C8_leerer_tilgungsplan_witness :
  berechne_vermoegensaufbau 60000 [] 1200 1.0 300000 = Ok [] /\
  bind (berechne_tilgungsplan 240000 3.5 2.0 0)
    (fun plan => berechne_vermoegensaufbau 60000 plan 1200 1.0 300000)
  = Ok [] /\
  bind (berechne_tilgungsplan 0 3.5 2.0 30)
    (fun plan => berechne_vermoegensaufbau 60000 plan 1200 1.0 300000)
  = Ok [].
Proof.
  destruct C8_leerer_tilgungsplan as (H1 & _ & _ & H4).
  split; [apply H1|]. split.
  - apply H4. left. reflexivity.
  - apply H4. right. reflexivity.
Defined.

Lemma getitem_Ok {A : Type} (xs : list A) (i : nat) :
  (i < length xs)%nat -> exists x, Py.getitem xs i = Ok x.
Proof.
  intro H. unfold Py.getitem.
  destruct (nth_error xs i) as [x|] eqn:E.
  - now exists x.
  - apply nth_error_None in E. lia.
Qed.

(** The projection loop never runs out of its balance column, it emits one
    row per year, and row [i] carries the value found on entry compounded
    [i + 1] times. *)
Lemma vermoegen_schleife_Ok (w cf : Q) (restschulden : list Q) :
  forall (jahre : list Z) (k : nat) (wert cfk : Q),
    (k + length jahre <= length restschulden)%nat ->
    exists zeilen,
      vermoegen_schleife w cf restschulden (Py.enumerate_from k jahre)
        wert cfk = Ok zeilen /\
      length zeilen = length jahre /\
      forall i zeile,
        nth_error zeilen i = Some zeile ->
        Immobilienwert zeile == wert * hoch (1 + w / 100) (S i).
Proof.
  induction jahre as [|jahr rest IH]; intros k wert cfk Hlen.
  - exists []. split; [reflexivity|]. split; [reflexivity|].
    intros [|i] zeile Hi; discriminate Hi.
  - cbn [Py.enumerate_from vermoegen_schleife length] in *.
    rewrite truediv_100. cbn [bind].
    destruct (getitem_Ok restschulden k) as (x & ->); [lia|]. cbn [bind].
    destruct (IH (S k) (wert * (1 + w / 100)) (cfk + cf)) as (zs & -> & Hl & Hz);
      [lia|].
    cbn [bind]. eexists. split; [reflexivity|]. split; [cbn; lia|].
    intros [|i] zeile Hi; cbn in Hi.
    + injection Hi as <-. cbn [Immobilienwert hoch]. ring.
    + rewrite (Hz i zeile Hi). cbn [hoch]. ring.
Qed.

(** The value handed to the loop, on a schedule that has a first row. *)
Lemma vermoegen_startwert_Ok (ek kp : Q) (z0 : TilgungsZeile)
    (rest : Tilgungsplan) :
  vermoegen_startwert ek kp (z0 :: rest) =
  Ok (if Py.lt 0 kp then kp
      else Restschuld z0 + Tilgung_kumuliert z0 - Tilgungsanteil z0 + ek).
Proof. reflexivity. Qed.

(** What the projector does on a non-empty schedule: one row per schedule
    row, the value on entry compounded once per row from the first row
    on; that value is the price when the price is positive. *)
Lemma vermoegensaufbau_wertsteigerung (ek cf w kp : Q) (plan : Tilgungsplan) :
  plan <> [] ->
  exists start zeilen,
    vermoegen_startwert ek kp plan = Ok start /\
    berechne_vermoegensaufbau ek plan cf w kp = Ok zeilen /\
    length zeilen = length plan /\
    (forall i zeile,
       nth_error zeilen i = Some zeile ->
       Immobilienwert zeile == start * hoch (1 + w / 100) (S i)) /\
    (0 < kp -> start = kp).
Proof.
  intro Hne. destruct plan as [|z0 rest]; [congruence|].
  unfold berechne_vermoegensaufbau.
  rewrite vermoegen_startwert_Ok. cbn [bind].
  eexists.
  destruct (vermoegen_schleife_Ok w cf (map Restschuld (z0 :: rest))
              (map Jahr (z0 :: rest)) 0
              (if Py.lt 0 kp then kp
               else Restschuld z0 + Tilgung_kumuliert z0
                    - Tilgungsanteil z0 + ek) 0)
    as (zs & Hzs & Hl & Hz).
  { rewrite !length_map. cbn. lia. }
  exists zs. split; [reflexivity|]. split; [exact Hzs|].
  split; [now rewrite Hl, length_map|]. split; [exact Hz|].
  intro Hkp. apply lt_true_iff in Hkp. now rewrite Hkp.
Qed.

(** Without a positive price the projector starts from what it calls
    [darlehensbetrag]; on a schedule of [berechne_tilgungsplan] that value
    is the remaining balance after the first year, so the start value
    stays below principal + equity by the first principal portion. *)
Lemma vermoegen_startwert_ohne_kaufpreis (d zp tp : Q) (n : Z) (ek kp : Q) :
  0 < d -> 0 <= zp -> 0 < tp -> (0 < n)%Z -> kp <= 0 ->
  exists z0 rest start,
    berechne_tilgungsplan d zp tp n = Ok (z0 :: rest) /\
    vermoegen_startwert ek kp (z0 :: rest) = Ok start /\
    start == Restschuld z0 + ek /\
    start == d + ek - Tilgungsanteil z0 /\
    start < d + ek.
Proof.
  intros Hd Hzp Htp Hn Hkp.
  eexists. eexists. eexists. split.
  - apply tilgungsplan_erste_zeile; assumption.
  - rewrite vermoegen_startwert_Ok.
    assert (Py.lt 0 kp = false) as E by (apply lt_false_iff; exact Hkp).
    rewrite E. split; [reflexivity|].
    cbn [Restschuld Tilgung_kumuliert Tilgungsanteil].
    assert (0 <= zp / 100) as Hz by (qnorm; lra).
    assert (d * (zp / 100) < d * (zp + tp) / 100) as Ha by (qnorm; nra).
    destruct (schritt (zp / 100) (d * (zp + tp) / 100) Hz d Hd Ha)
      as (H1 & H2 & _ & H4 & _).
    repeat split; lra.
Qed.

Lemma vermoegen_startwert_ohne_kaufpreis_witness :
  0 < 240000 /\ 0 <= 3.5 /\ 0 < 2.0 /\ (0 < 30)%Z /\ 0 <= 0 /\
  exists z0 rest start,
    berechne_tilgungsplan 240000 3.5 2.0 30 = Ok (z0 :: rest) /\
    vermoegen_startwert 60000 0 (z0 :: rest) = Ok start /\
    start == Restschuld z0 + 60000 /\
    start == 240000 + 60000 - Tilgungsanteil z0 /\
    start < 240000 + 60000.
Proof.
  split; [reflexivity|]. split; [discriminate|].
  split; [reflexivity|]. split; [reflexivity|]. split; [discriminate|].
  apply (vermoegen_startwert_ohne_kaufpreis 240000 3.5 2.0 30 60000 0);
    [reflexivity | discriminate | reflexivity | reflexivity | discriminate].
Defined.

(** C3, evaluated where it breaks: the schedule of a loan of 100000 at 2 %
    interest and 2 % amortization over 2 years, equity 20000, appreciation
    1.0 % and the default price 0. The projector starts from 118000 (the
    balance 98000 left after year 1, plus equity) instead of
    principal + equity = 120000, and its first row shows 119180 instead of
    121200. *)
Theorem C3_startwert_ohne_kaufpreis_beispiel :
  exists plan start zeile rest,
    berechne_tilgungsplan 100000 2 2 2 = Ok plan /\
    vermoegen_startwert 20000 0 plan = Ok start /\
    start == 118000 /\
    ~ start == 100000 + 20000 /\
    berechne_vermoegensaufbau 20000 plan 0 1.0 0 = Ok (zeile :: rest) /\
    Immobilienwert zeile == 119180 /\
    ~ Immobilienwert zeile == (100000 + 20000) * (1 + 1.0 / 100).
Proof.
  eexists. eexists. eexists. eexists.
  split; [reflexivity|]. split; [reflexivity|].
  split; [vm_compute; reflexivity|].
  split; [vm_compute; congruence|].
  split; [vm_compute; reflexivity|].
  split; [vm_compute; reflexivity|].
  vm_compute; congruence.
Qed.

(* ===================================================================== *)
(** ** Beyond the claims: the amortization schedule, for every input *)
(* ===================================================================== *)


Lemma schleife_jahre (zinssatz annuitaet : Q) (jahre : list Z) :
  forall restschuld zk tk i zeile,
    nth_error
      (tilgungsplan_schleife zinssatz annuitaet jahre restschuld zk tk) i
    = Some zeile ->
    nth_error jahre i = Some (Jahr zeile).
Proof.
  induction jahre as [|jahr rest IH]; intros restschuld zk tk i zeile Hi.
  - destruct i; discriminate Hi.
  - cbn [tilgungsplan_schleife] in Hi.
    destruct (Py.le restschuld 0); [destruct i; discriminate Hi|].
    destruct i as [|i]; cbn in Hi.
    + injection Hi as <-. reflexivity.
    + cbn. exact (IH _ _ _ _ _ Hi).
Qed.

Lemma range_nth (lo hi : Z) (i : nat) (x : Z) :
  nth_error (Py.range lo hi) i = Some x ->
  x = (lo + Z.of_nat i)%Z /\ (x < hi)%Z.
Proof.
  unfold Py.range. intro H.
  rewrite nth_error_map in H.
  destruct (nth_error (seq 0 (Z.to_nat (hi - lo))) i) as [k|] eqn:E;
    [|discriminate H].
  injection H as <-.
  assert (i < length (seq 0 (Z.to_nat (hi - lo))))%nat as Hlt
    by (apply nth_error_Some; congruence).
  rewrite length_seq in Hlt.
  rewrite nth_error_nth' with (d := 0%nat) in E
    by (rewrite length_seq; exact Hlt).
  rewrite seq_nth in E by exact Hlt. injection E as <-. cbn. lia.
Qed.




(** X1: the year column counts 1, 2, 3, ... without a gap and never passes
    the term, for every input. *)
Theorem X1_jahre_fortlaufend (d zp tp : Q) (n : Z) :
  exists plan,
    berechne_tilgungsplan d zp tp n = Ok plan /\
    forall i zeile,
      nth_error plan i = Some zeile ->
      Jahr zeile = (Z.of_nat i + 1)%Z /\ (1 <= Jahr zeile <= n)%Z.
Proof.
  eexists. split; [reflexivity|].
  intros i zeile Hi.
  apply schleife_jahre in Hi. apply range_nth in Hi. lia.
Qed.


(* ===================================================================== *)
(** ** Beyond the claims: closing costs *)
(* ===================================================================== *)

Lemma steuersatz_schranken (b : Bundesland) :
  3.5 <= steuersatz b /\ steuersatz b <= 6.5.
Proof. destruct b; split; discriminate. Qed.

(** X19: for a price >= 0 and broker and notary rates >= 0, every
    component of the breakdown is >= 0, the transfer tax lies between
    3.5 % and 6.5 % of the price in every region, the total is at least
    the transfer tax plus the notary costs, and without the broker flag
    the broker rate given has no influence at all. *)
Theorem X19_nebenkosten_schranken
    (preis : Q) (bundesland : Bundesland) (mit_makler : bool)
    (makler_prozent notar_prozent : Q) :
  0 <= preis -> 0 <= makler_prozent -> 0 <= notar_prozent ->
  exists nk,
    berechne_nebenkosten_nach_bundesland preis bundesland mit_makler
      makler_prozent notar_prozent = Ok nk /\
    preis * 3.5 / 100 <= grunderwerbsteuer nk /\
    grunderwerbsteuer nk <= preis * 6.5 / 100 /\
    0 <= notar_und_grundbuch nk /\
    0 <= makler nk /\
    grunderwerbsteuer nk + notar_und_grundbuch nk <= gesamt nk /\
    (mit_makler = false ->
     makler nk == 0 /\
     forall andere_provision,
       berechne_nebenkosten_nach_bundesland preis bundesland false
         andere_provision notar_prozent = Ok nk).
Proof.
  intros Hp Hm Hn.
  destruct (steuersatz_schranken bundesland) as [Hs0 Hs1].
  eexists. split; [reflexivity|].
  cbn [grunderwerbsteuer notar_und_grundbuch makler gesamt].
  set (s := steuersatz bundesland) in *.
  assert (0 <= (if mit_makler then makler_prozent else 0.0)) as Hmk
    by (destruct mit_makler; [exact Hm | discriminate]).
  set (m := if mit_makler then makler_prozent else 0.0) in *.
  qnorm.
  split; [nra|]. split; [nra|]. split; [nra|]. split; [nra|].
  split; [nra|].
  intro Hf. subst m. rewrite Hf. split; [lra|].
  intro andere. reflexivity.
Qed.

Lemma X19_nebenkosten_schranken_witness :
  0 <= 300000 /\ 0 <= 3.57 /\ 0 <= 2.0 /\
  exists nk,
    berechne_nebenkosten_nach_bundesland 300000 BAYERN false 3.57 2.0
    = Ok nk /\
    300000 * 3.5 / 100 <= grunderwerbsteuer nk /\
    grunderwerbsteuer nk <= 300000 * 6.5 / 100 /\
    0 <= notar_und_grundbuch nk /\
    0 <= makler nk /\
    grunderwerbsteuer nk + notar_und_grundbuch nk <= gesamt nk /\
    makler nk == 0 /\
    berechne_nebenkosten_nach_bundesland 300000 BAYERN false 7.14 2.0
    = Ok nk.
Proof.
  split; [discriminate|]. split; [discriminate|]. split; [discriminate|].
  destruct (X19_nebenkosten_schranken 300000 BAYERN false 3.57 2.0)
    as (nk & Hnk & H1 & H2 & H3 & H4 & H5 & H6);
    [discriminate | discriminate | discriminate |].
  exists nk. split; [exact Hnk|].
  split; [exact H1|]. split; [exact H2|]. split; [exact H3|].
  split; [exact H4|]. split; [exact H5|].
  destruct (H6 eq_refl) as [H7 H8]. split; [exact H7 | apply H8].
Defined.

(* ===================================================================== *)
(** ** Beyond the claims: the wealth projection on binary64 *)
(* ===================================================================== *)

Section GleitkommaVermoegen.

Import Binary64.
Local Open Scope float_scope.

(** Everything the projection loop writes into its rows. *)
Lemma vermoegen64_schleife_zeilen (w cf : float) (restschulden : list float) :
  forall (jahre : list Z) (k : nat) (wert cfk : float),
    (k + length jahre <= length restschulden)%nat ->
    exists zeilen,
      vermoegen_schleife w cf restschulden (Py.enumerate_from k jahre)
        wert cfk = Ok zeilen /\
      length zeilen = length jahre /\
      (forall i zeile,
         nth_error zeilen i = Some zeile ->
         nth_error jahre i = Some (V_Jahr zeile) /\
         nth_error restschulden (k + i) = Some (V_Restschuld zeile) /\
         Nettovermoegen zeile = Immobilienwert zeile - V_Restschuld zeile /\
         Gesamtvermoegen zeile
           = Nettovermoegen zeile + Cashflow_kumuliert zeile) /\
      (forall zeile,
         nth_error zeilen 0 = Some zeile ->
         Immobilienwert zeile = wert * (1 + w / 100) /\
         Cashflow_kumuliert zeile = cfk + cf) /\
      (forall i v1 v2,
         nth_error zeilen i = Some v1 ->
         nth_error zeilen (S i) = Some v2 ->
         Immobilienwert v2 = Immobilienwert v1 * (1 + w / 100) /\
         Cashflow_kumuliert v2 = Cashflow_kumuliert v1 + cf).
Proof.
  induction jahre as [|jahr rest IH]; intros k wert cfk Hlen.
  - exists []. split; [reflexivity|]. split; [reflexivity|].
    split; [|split].
    + intros [|i] zeile Hi; discriminate Hi.
    + intros zeile Hi; discriminate Hi.
    + intros [|i] v1 v2 Hi; discriminate Hi.
  - cbn [Py.enumerate_from vermoegen_schleife length] in *.
    rewrite truediv64_100. cbn [bind].
    unfold Py.getitem.
    destruct (nth_error restschulden k) as [x|] eqn:Ex;
      [|apply nth_error_None in Ex; lia].
    cbn [bind].
    destruct (IH (S k) (wert * (1 + w / 100)) (cfk + cf))
      as (zs & -> & Hl & Hrow & Hfirst & Hnext); [lia|].
    cbn [bind]. eexists. split; [reflexivity|]. split; [cbn; lia|].
    split; [|split].
    + intros [|i] zeile Hi; cbn [nth_error] in Hi.
      * injection Hi as <-.
        cbn [V_Jahr V_Restschuld Immobilienwert Nettovermoegen
             Cashflow_kumuliert Gesamtvermoegen nth_error].
        rewrite Nat.add_0_r. repeat split. exact Ex.
      * destruct (Hrow i zeile Hi) as (H1 & H2 & H3 & H4).
        replace (k + S i)%nat with (S k + i)%nat by lia.
        cbn [nth_error]. repeat split; assumption.
    + intros zeile Hi. injection Hi as <-. split; reflexivity.
    + intros [|i] v1 v2 Hi Hi'; cbn [nth_error] in Hi, Hi'.
      * injection Hi as <-. exact (Hfirst v2 Hi').
      * exact (Hnext i v1 v2 Hi Hi').
Qed.

(** X14: on any schedule whatever, [berechne_vermoegensaufbau] raises
    nothing (no index leaves the balance column) and returns one row per
    schedule row. Row i copies year and remaining balance of schedule row
    i, its net worth is property value minus that balance and its total
    wealth is net worth plus cumulative cash flow. The first row holds the
    start value times (1 + appreciation / 100) and the cumulative cash
    flow 0 + annual cash flow; every further row multiplies the property
    value of the row before by the same factor and adds the annual cash
    flow to its cumulative cash flow. The start value is the price when
    the price is above 0, and otherwise what the first schedule row gives
    for Restschuld + Tilgung kumuliert - Tilgungsanteil, plus equity. *)
Theorem X14_vermoegensaufbau_zeilen
    (eigenkapital : float) (plan : Tilgungsplan) (cashflow w preis : float) :
  exists zeilen,
    berechne_vermoegensaufbau eigenkapital plan cashflow w preis
    = Ok zeilen /\
    length zeilen = length plan /\
    (forall i zeile,
       nth_error zeilen i = Some zeile ->
       exists tz,
         nth_error plan i = Some tz /\
         V_Jahr zeile = Jahr tz /\
         V_Restschuld zeile = Restschuld tz /\
         Nettovermoegen zeile = Immobilienwert zeile - Restschuld tz /\
         Gesamtvermoegen zeile
           = Nettovermoegen zeile + Cashflow_kumuliert zeile) /\
    (forall z0 zeile,
       nth_error plan 0 = Some z0 ->
       nth_error zeilen 0 = Some zeile ->
       Immobilienwert zeile
         = (if lt 0 preis then preis
            else Restschuld z0 + Tilgung_kumuliert z0 - Tilgungsanteil z0
                 + eigenkapital)
           * (1 + w / 100) /\
       Cashflow_kumuliert zeile = 0 + cashflow) /\
    (forall i v1 v2,
       nth_error zeilen i = Some v1 ->
       nth_error zeilen (S i) = Some v2 ->
       Immobilienwert v2 = Immobilienwert v1 * (1 + w / 100) /\
       Cashflow_kumuliert v2 = Cashflow_kumuliert v1 + cashflow).
Proof.
  destruct plan as [|z0 rest].
  - exists []. split; [reflexivity|]. split; [reflexivity|].
    split; [|split].
    + intros [|i] zeile Hi; discriminate Hi.
    + intros z zeile Hi; discriminate Hi.
    + intros [|i] v1 v2 Hi; discriminate Hi.
  - unfold berechne_vermoegensaufbau. cbn [map Py.iloc0 Py.getitem nth_error bind].
    match goal with
    | |- context [vermoegen_schleife _ _ _ _ ?s 0] =>
        destruct (vermoegen64_schleife_zeilen w cashflow
                    (Restschuld z0 :: map Restschuld rest)
                    (Jahr z0 :: map Jahr rest) 0 s 0)
          as (zs & Hzs & Hl & Hrow & Hfirst & Hnext)
    end.
    { cbn [length]. rewrite !length_map. lia. }
    exists zs. split; [exact Hzs|].
    split; [rewrite Hl; cbn [length]; now rewrite length_map|].
    split; [|split].
    + intros i zeile Hi.
      destruct (Hrow i zeile Hi) as (H1 & H2 & H3 & H4).
      cbn [Nat.add] in H2.
      change (Jahr z0 :: map Jahr rest) with (map Jahr (z0 :: rest)) in H1.
      change (Restschuld z0 :: map Restschuld rest)
        with (map Restschuld (z0 :: rest)) in H2.
      rewrite nth_error_map in H1, H2.
      destruct (nth_error (z0 :: rest) i) as [tz|] eqn:Et; [|discriminate H1].
      cbn in H1, H2. injection H1 as H1. injection H2 as H2.
      exists tz. split; [reflexivity|].
      split; [now symmetry|]. split; [now symmetry|].
      split; [now rewrite H3, H2 | exact H4].
    + intros z zeile Hz Hi. cbn in Hz. injection Hz as <-.
      exact (Hfirst zeile Hi).
    + exact Hnext.
Qed.

End GleitkommaVermoegen.
